(** * DummyDB: deployment manifest, container build file and landing-page
      components

    The repository fragment holds a Compose manifest
    ([api/src/docker-compose.yml]), a container build file
    ([api/src/Dockerfile]) and three React components (the Home page, the
    Navbar and the Footer).  The manifest and the build file are embedded as
    records and instruction lists that keep the scalars as they are written
    ("30s", "8000:8000", "./logs:/app/logs"); small executable readers turn
    them into numbers, port mappings, mounts and URLs.  The components are
    embedded as functions from a render environment to an element tree. *)

From Stdlib Require Import String Ascii List NArith ZArith Bool Lia.
Import ListNotations.
Open Scope string_scope.
Set Warnings "-register-all".

(** ** Reading scalars *)

Module Scalar.

(** Cut [s] at every occurrence of [sep]. *)
Fixpoint split_on (sep : ascii) (s : string) : list string :=
  match s with
  | EmptyString => [EmptyString]
  | String c rest =>
      if Ascii.eqb c sep then EmptyString :: split_on sep rest
      else match split_on sep rest with
           | [] => [String c EmptyString]
           | w :: ws => String c w :: ws
           end
  end.

(** Cut [s] at the first occurrence of [sep]. *)
Fixpoint split_first (sep : ascii) (s : string) : option (string * string) :=
  match s with
  | EmptyString => None
  | String c rest =>
      if Ascii.eqb c sep then Some (EmptyString, rest)
      else match split_first sep rest with
           | Some (l, r) => Some (String c l, r)
           | None => None
           end
  end.

(** Blank-separated words of a command line. *)
Definition words (s : string) : list string :=
  filter (fun w => negb (w =? "")) (split_on " "%char s).

Definition digit_of (c : ascii) : option N :=
  let n := N_of_ascii c in
  if ((48 <=? n) && (n <=? 57))%N then Some (n - 48)%N else None.

Fixpoint parse_digits (acc : N) (s : string) : option N :=
  match s with
  | EmptyString => Some acc
  | String c rest =>
      match digit_of c with
      | Some d => parse_digits (10 * acc + d)%N rest
      | None => None
      end
  end.

(** A non-empty run of decimal digits. *)
Definition parse_N (s : string) : option N :=
  match s with
  | EmptyString => None
  | _ => parse_digits 0%N s
  end.

(** Leading digits of [s] and what follows them. *)
Fixpoint span_digits (s : string) : string * string :=
  match s with
  | EmptyString => (EmptyString, EmptyString)
  | String c rest =>
      match digit_of c with
      | Some _ => let '(ds, u) := span_digits rest in (String c ds, u)
      | None => (EmptyString, s)
      end
  end.

(** A duration with one unit ("30s", "2m", "1h"), in seconds.  Durations
    that chain several units are not read. *)
Definition parse_duration (s : string) : option N :=
  let '(ds, u) := span_digits s in
  match parse_N ds with
  | Some n =>
      if u =? "s" then Some n
      else if u =? "m" then Some (60 * n)%N
      else if u =? "h" then Some (3600 * n)%N
      else None
  | None => None
  end.

Record Url := mkUrl {
  scheme : string;
  host : string;
  port : option N;
  path : string
}.

(** [scheme://host[:port][/path]]; a missing path is ["/"]. *)
Definition parse_url (s : string) : option Url :=
  match split_first ":"%char s with
  | Some (sch, rest) =>
      if String.prefix "//" rest then
        let after := substring 2 (String.length rest - 2) rest in
        let '(authority, p) :=
          match split_first "/"%char after with
          | Some (a, p) => (a, String "/"%char p)
          | None => (after, "/")
          end in
        match split_first ":"%char authority with
        | Some (h, pt) =>
            match parse_N pt with
            | Some n => Some (mkUrl sch h (Some n) p)
            | None => None
            end
        | None => Some (mkUrl sch authority None p)
        end
      else None
  | None => None
  end.

(** The argument that follows the first occurrence of [flag]. *)
Fixpoint arg_after (flag : string) (argv : list string) : option string :=
  match argv with
  | [] => None
  | a :: rest =>
      if a =? flag then
        match rest with
        | v :: _ => Some v
        | [] => None
        end
      else arg_after flag rest
  end.

(** The words of a shell command line up to its first [||]. *)
Fixpoint before_or (ws : list string) : list string :=
  match ws with
  | [] => []
  | w :: rest => if w =? "||" then [] else w :: before_or rest
  end.

End Scalar.

(** ** Health probes *)

Module Health.
Import Scalar.

(** The health-check spec of the service descriptor: probe command,
    interval, timeout, retry count and start-up grace period; times in
    seconds. *)
Record HealthSpec := mkHealthSpec {
  probe_command : list string;
  interval_s : N;
  timeout_s : N;
  retry_count : N;
  grace_s : N
}.

(** The four timing fields, in the order above. *)
Definition timing (h : HealthSpec) : N * N * N * N :=
  (interval_s h, timeout_s h, retry_count h, grace_s h).

(** An argument of the probe that is not an option is its URL. *)
Definition probe_url (argv : list string) : option Url :=
  match filter (fun a => negb (String.prefix "-" a)) (tl argv) with
  | [u] => parse_url u
  | _ => None
  end.

(** The request method curl uses: [-X]/[--request] names it, [-I] and
    [--head] ask for HEAD, a body asks for POST, and GET otherwise. *)
Definition curl_method (argv : list string) : string :=
  match arg_after "-X" argv, arg_after "--request" argv with
  | Some m, _ => m
  | None, Some m => m
  | None, None =>
      if existsb (fun a => (a =? "-I") || (a =? "--head")) argv then "HEAD"
      else if existsb (fun a => (a =? "-d") || (a =? "--data")) argv then "POST"
      else "GET"
  end.

(** [-f] makes curl fail on an HTTP error status. *)
Definition fails_on_http_error (argv : list string) : bool :=
  existsb (fun a => (a =? "-f") || (a =? "--fail")) argv.

End Health.

(** ** The Compose manifest *)

Module Compose.
Import Scalar Health.

Record Healthcheck := mkHealthcheck {
  test : list string;
  interval : string;
  timeout : string;
  retries : N;
  start_period : string
}.

(** What a dependent service waits for. *)
Inductive Condition :=
| service_started
| service_healthy
| service_completed_successfully.

(** [depends_on] is either a plain list of service names or a map from
    service names to conditions. *)
Inductive DependsOn :=
| DependsList (names : list string)
| DependsMap (entries : list (string * Condition)).

Record Service := mkService {
  name : string;
  build : option string;
  image : option string;
  ports : list string;
  environment : list string;
  volumes : list string;
  restart : option string;
  healthcheck : option Healthcheck;
  depends_on : DependsOn;
  profiles : list string
}.

Record Manifest := mkManifest {
  version : string;
  services : list Service;
  top_volumes : list string
}.

(** docker-compose.yml, lines 4-18. *)
Definition sql_schema_parser : Service := {|
  name := "sql-schema-parser";
  build := Some ".";
  image := None;
  ports := ["8000:8000"];
  environment := ["PYTHONUNBUFFERED=1"];
  volumes := ["./logs:/app/logs"];
  restart := Some "unless-stopped";
  healthcheck := Some {|
    test := ["CMD"; "curl"; "-f"; "http://localhost:8000/v1/health"];
    interval := "30s";
    timeout := "10s";
    retries := 3;
    start_period := "40s"
  |};
  depends_on := DependsList [];
  profiles := []
|}.

(** docker-compose.yml, lines 20-30. *)
Definition nginx : Service := {|
  name := "nginx";
  build := None;
  image := Some "nginx:alpine";
  ports := ["80:80"];
  environment := [];
  volumes := ["./nginx.conf:/etc/nginx/nginx.conf"];
  restart := Some "unless-stopped";
  healthcheck := None;
  depends_on := DependsList ["sql-schema-parser"];
  profiles := ["production"]
|}.

(** The whole file: no top-level [volumes] key is written. *)
Definition docker_compose : Manifest := {|
  version := "3.8";
  services := [sql_schema_parser; nginx];
  top_volumes := []
|}.

(** *** Readers *)

(** The command a [test] runs: the arguments after [CMD], or the words of
    the line after [CMD-SHELL] up to its first [||]. *)
Definition test_argv (t : list string) : option (list string) :=
  match t with
  | tag :: args =>
      if tag =? "CMD" then Some args
      else if tag =? "CMD-SHELL" then
        match args with
        | [line] => Some (before_or (words line))
        | _ => None
        end
      else None
  | [] => None
  end.

Definition health_spec (h : Healthcheck) : option HealthSpec :=
  match test_argv (test h), parse_duration (interval h),
        parse_duration (timeout h), parse_duration (start_period h) with
  | Some argv, Some i, Some t, Some g => Some (mkHealthSpec argv i t (retries h) g)
  | _, _, _, _ => None
  end.

Record PortMapping := mkPortMapping {
  published : N;
  target : N
}.

(** [HOST:CONTAINER]. *)
Definition port_mapping (s : string) : option PortMapping :=
  match split_on ":"%char s with
  | [h; c] =>
      match parse_N h, parse_N c with
      | Some hp, Some cp => Some (mkPortMapping hp cp)
      | _, _ => None
      end
  | _ => None
  end.

Inductive MountKind := Bind | Named | Anonymous.

Record Mount := mkMount {
  kind : MountKind;
  source : string;
  destination : string
}.

(** A source that starts with [.], [/] or [~] is a host path. *)
Definition is_host_path (s : string) : bool :=
  String.prefix "." s || String.prefix "/" s || String.prefix "~" s.

(** A host path that does not start at the root or at the home directory
    is relative to the manifest's directory. *)
Definition is_relative (s : string) : bool :=
  String.prefix "./" s || String.prefix "../" s.

(** [SOURCE:TARGET[:MODE]], or [TARGET] alone for an anonymous volume. *)
Definition mount (s : string) : option Mount :=
  match split_on ":"%char s with
  | [t] => Some (mkMount Anonymous "" t)
  | src :: dst :: _ =>
      Some (mkMount (if is_host_path src then Bind else Named) src dst)
  | [] => None
  end.

(** [KEY=VALUE]. *)
Definition env_var (s : string) : option (string * string) :=
  split_first "="%char s.

Fixpoint collect {A B : Type} (f : A -> option B) (l : list A) : list B :=
  match l with
  | [] => []
  | a :: rest =>
      match f a with
      | Some b => b :: collect f rest
      | None => collect f rest
      end
  end.

Definition port_mappings (s : Service) : list PortMapping :=
  collect port_mapping (ports s).

Definition mounts (s : Service) : list Mount :=
  collect mount (volumes s).

Definition env_vars (s : Service) : list (string * string) :=
  collect env_var (environment s).

(** Every mount of the manifest, with the service that declares it. *)
Definition all_mounts (m : Manifest) : list (string * Mount) :=
  flat_map (fun s => map (fun v => (name s, v)) (mounts s)) (services m).

Inductive RestartPolicy :=
| restart_no
| restart_always
| restart_on_failure
| restart_unless_stopped.

(** An absent [restart] key means ["no"]. *)
Definition restart_policy (s : Service) : option RestartPolicy :=
  match restart s with
  | None => Some restart_no
  | Some r =>
      if r =? "no" then Some restart_no
      else if r =? "always" then Some restart_always
      else if r =? "on-failure" then Some restart_on_failure
      else if r =? "unless-stopped" then Some restart_unless_stopped
      else None
  end.

(** The plain list form waits for each named service to be started. *)
Definition dependencies (s : Service) : list (string * Condition) :=
  match depends_on s with
  | DependsList names => map (fun n => (n, service_started)) names
  | DependsMap entries => entries
  end.

(** A variable that switches the Python process to unbuffered output. *)
Definition is_output_mode_flag (kv : string * string) : bool :=
  (fst kv =? "PYTHONUNBUFFERED") && negb (snd kv =? "").

End Compose.

(** ** The container build file *)

Module Dockerfile.
Import Scalar Health.

(** A command in shell form (one line handed to the shell) or in exec form
    (an argument vector). *)
Inductive Command :=
| Shell (line : string)
| Exec (argv : list string).

Inductive Instruction :=
| FROM (base : string)
| WORKDIR (dir : string)
| RUN (c : Command)
| ENV (key value : string)
| COPY (src dst : string)
| EXPOSE (port : string)
| VOLUME (paths : list string)
| HEALTHCHECK (options : list string) (c : Command)
| CMD (c : Command).

(** Dockerfile, lines 1-31; continuation lines are joined and the blanks
    between two words are written as one. *)
Definition dockerfile : list Instruction := [
  FROM "python:3.11-slim";
  WORKDIR "/app";
  RUN (Shell "apt-get update && apt-get install -y curl && rm -rf /var/lib/apt/lists/*");
  RUN (Shell "curl -LsSf https://astral.sh/uv/install.sh | sh");
  ENV "PATH" "/root/.local/bin:$PATH";
  COPY "requirements.txt" ".";
  RUN (Shell "uv pip install --system -r requirements.txt");
  COPY "." ".";
  EXPOSE "8000";
  HEALTHCHECK ["--interval=30s"; "--timeout=30s"; "--start-period=5s"; "--retries=3"]
              (Shell "curl -f http://localhost:8000/v1/health || exit 1");
  CMD (Exec ["uvicorn"; "main:app"; "--host"; "0.0.0.0"; "--port"; "8000"])
].

(** *** Readers *)

(** The command that is run: the vector of an exec form, or the words of a
    shell line up to its first [||]. *)
Definition command_argv (c : Command) : list string :=
  match c with
  | Exec argv => argv
  | Shell line => before_or (words line)
  end.

(** The value of the option [--key=value]. *)
Fixpoint option_value (key : string) (options : list string) : option string :=
  match options with
  | [] => None
  | o :: rest =>
      match split_first "="%char o with
      | Some (k, v) => if k =? "--" ++ key then Some v else option_value key rest
      | None => option_value key rest
      end
  end.

(** The last instruction of the file that [pick] accepts. *)
Fixpoint last_of {A : Type} (pick : Instruction -> option A)
         (df : list Instruction) : option A :=
  match df with
  | [] => None
  | i :: rest =>
      match last_of pick rest with
      | Some a => Some a
      | None => pick i
      end
  end.

Definition exposed_ports (df : list Instruction) : list N :=
  flat_map (fun i => match i with
                     | EXPOSE p => match parse_N p with
                                   | Some n => [n]
                                   | None => []
                                   end
                     | _ => []
                     end) df.

Definition declared_volumes (df : list Instruction) : list string :=
  flat_map (fun i => match i with
                     | VOLUME ps => ps
                     | _ => []
                     end) df.

(** The health check of the image; the options the instruction does not
    write are not filled in. *)
Definition health_spec (df : list Instruction) : option HealthSpec :=
  match last_of (fun i => match i with
                          | HEALTHCHECK o c => Some (o, c)
                          | _ => None
                          end) df with
  | Some (o, c) =>
      match option_value "interval" o, option_value "timeout" o,
            option_value "retries" o, option_value "start-period" o with
      | Some i, Some t, Some r, Some g =>
          match parse_duration i, parse_duration t, parse_N r, parse_duration g with
          | Some i', Some t', Some r', Some g' =>
              Some (mkHealthSpec (command_argv c) i' t' r' g')
          | _, _, _, _ => None
          end
      | _, _, _, _ => None
      end
  | None => None
  end.

(** The process the container runs. *)
Definition entry_command (df : list Instruction) : option (list string) :=
  last_of (fun i => match i with
                    | CMD c => Some (command_argv c)
                    | _ => None
                    end) df.

(** The port the process is started on: the value of [--port]. *)
Definition listen_port (df : list Instruction) : option N :=
  match entry_command df with
  | Some argv =>
      match arg_after "--port" argv with
      | Some p => parse_N p
      | None => None
      end
  | None => None
  end.

End Dockerfile.

(** ** Bringing the manifest up

    The meaning of the keys [profiles] and [depends_on]: which services a
    deployment creates, and in which order their containers are created
    and started. *)

Module Deploy.
Import Compose.

(** A service without [profiles] is always enabled; one with [profiles] is
    enabled when one of them is active. *)
Definition enabled (active : list string) (s : Service) : bool :=
  match profiles s with
  | [] => true
  | ps => existsb (fun p => existsb (String.eqb p) active) ps
  end.

(** The services a deployment with the [active] profiles creates. *)
Definition up (active : list string) (m : Manifest) : list Service :=
  filter (enabled active) (services m).

Inductive HealthStatus := starting | healthy | unhealthy.

Inductive Status :=
| absent
| created
| running (h : HealthStatus).

Definition State := string -> Status.

Definition initial : State := fun _ => absent.

Definition set (st : State) (n : string) (v : Status) : State :=
  fun k => if k =? n then v else st k.

Definition is_created (v : Status) : bool :=
  match v with
  | absent => false
  | _ => true
  end.

Definition is_running (v : Status) : bool :=
  match v with
  | running _ => true
  | _ => false
  end.

Definition find_service (m : Manifest) (n : string) : option Service :=
  find (fun s => name s =? n) (services m).

(** Whether the dependency [d] lets its dependent start.  Exit codes are
    not part of the state, so [service_completed_successfully] never
    holds. *)
Definition satisfied (st : State) (d : string * Condition) : bool :=
  match snd d, st (fst d) with
  | service_started, running _ => true
  | service_healthy, running healthy => true
  | _, _ => false
  end.

Inductive Action :=
| Create (n : string)
| Start (n : string)
| Probe (n : string) (h : HealthStatus).

(** One step of a deployment: a container is created once those it depends
    on exist, is started once its dependencies meet their conditions, and a
    probe sets the health status of a running container that has a health
    check. *)
Definition step (active : list string) (m : Manifest) (st : State)
           (a : Action) : option State :=
  match a with
  | Create n =>
      match find_service m n with
      | Some s =>
          if enabled active s && negb (is_created (st n))
             && forallb (fun d => is_created (st (fst d))) (dependencies s)
          then Some (set st n created) else None
      | None => None
      end
  | Start n =>
      match find_service m n with
      | Some s =>
          match st n with
          | created =>
              if forallb (satisfied st) (dependencies s)
              then Some (set st n (running starting)) else None
          | _ => None
          end
      | None => None
      end
  | Probe n h =>
      match find_service m n with
      | Some s =>
          match healthcheck s, st n with
          | Some _, running _ => Some (set st n (running h))
          | _, _ => None
          end
      | None => None
      end
  end.

Fixpoint run (active : list string) (m : Manifest) (st : State)
         (acts : list Action) : option State :=
  match acts with
  | [] => Some st
  | a :: rest =>
      match step active m st a with
      | Some st' => run active m st' rest
      | None => None
      end
  end.

(** The proxy exists only if the application service exists, and runs only
    if the application service runs. *)
Definition ordered (st : State) : bool :=
  implb (is_created (st "nginx")) (is_created (st "sql-schema-parser"))
  && implb (is_running (st "nginx")) (is_running (st "sql-schema-parser")).

(** A deployment that creates and starts both containers. *)
Definition start_both : list Action := [
  Create "sql-schema-parser";
  Create "nginx";
  Start "sql-schema-parser";
  Start "nginx"
].

(** A deployment in which the application service is probed unhealthy
    before the proxy is started. *)
Definition start_behind_unhealthy : list Action := [
  Create "sql-schema-parser";
  Create "nginx";
  Start "sql-schema-parser";
  Probe "sql-schema-parser" unhealthy;
  Start "nginx"
].

End Deploy.

(** ** The service descriptor as the two files declare it *)

Module Descriptor.
Import Scalar Health.

(** The health check the manifest declares for the application service. *)
Definition compose_health : option HealthSpec :=
  match Compose.healthcheck Compose.sql_schema_parser with
  | Some h => Compose.health_spec h
  | None => None
  end.

(** The health check the image declares. *)
Definition image_health : option HealthSpec :=
  Dockerfile.health_spec Dockerfile.dockerfile.

(** The probe requests [p] with GET. *)
Definition probes_get (p : string) (h : HealthSpec) : Prop :=
  curl_method (probe_command h) = "GET"
  /\ option_map path (probe_url (probe_command h)) = Some p.

End Descriptor.

(** ** The proxy configuration *)

Module Proxy.

Record Config := mkConfig {
  listen : N;
  upstream_host : string;
  upstream_port : N
}.

(** Modelled from the spec: the file [./nginx.conf] that the manifest mounts
    into the nginx container is not among the sources.  By sections 4.2 and
    6 of the spec the proxy accepts connections on the public port 80 and
    forwards them to the application service's internal port. *)
Definition nginx_conf : Config := {|
  listen := 80;
  upstream_host := "sql-schema-parser";
  upstream_port := 8000
|}.

End Proxy.

(** ** The landing-page components *)

Module UI.

Inductive PropValue :=
| PStr (s : string)
| PNum (n : Z)
| PStyle (decls : list (string * string)).

(** What a component returns.  A lower-case tag is a host element; an
    upper-case tag names an imported component whose source is elsewhere
    ([Button], [ModeToggle], [Link], [GitBranch]) and is left as it is
    written. *)
Inductive Node :=
| Text (s : string)
| Number (n : Z)
| Element (tag : string) (props : list (string * PropValue)) (children : list Node).

(** The local date and time a [Date] object holds. *)
Record Date := mkDate {
  fullYear : Z;
  month : Z;
  date : Z;
  hours : Z;
  minutes : Z;
  seconds : Z;
  milliseconds : Z
}.

(** What a render can observe of the run it happens in: the clock. *)
Record Env := mkEnv {
  clock : Date
}.

(** [new Date()] *)
Definition new_Date (e : Env) : Date := clock e.

(** [d.getFullYear()] *)
Definition getFullYear (d : Date) : Z := fullYear d.

Definition Component := Env -> Node.

(** The character that [&copy;] stands for, in UTF-8. *)
Definition copy_sign : string := String "194"%char (String "169"%char EmptyString).

(** Navbar (part_001, lines 4-17). *)
Definition Navbar : Component := fun _ =>
  Element "nav"
    [("className", PStr "w-full flex items-center justify-between p-6 sm:px-12 border-b border-border bg-background/80 backdrop-blur sticky top-0 z-10")]
    [ Element "span"
        [("className", PStr "text-2xl font-bold tracking-tight select-none")]
        [Text "DummyDB"];
      Element "div"
        [("className", PStr "flex items-center gap-4")]
        [ Element "Button" [] [Text "Get Started"];
          Element "Button" [("variant", PStr "outline")] [Text "Docs"];
          Element "ModeToggle" [] [] ] ].

(** Footer (ui/components/Footer/Footer.tsx, lines 5-23). *)
Definition Footer : Component := fun e =>
  Element "footer"
    [("className", PStr "w-full flex flex-col sm:flex-row justify-between items-center gap-2 py-4 px-8 text-xs text-muted-foreground border-t border-border mt-8")]
    [ Element "span" []
        [ Text (copy_sign ++ " ");
          Number (getFullYear (new_Date e));
          Text " DummyDB. All rights reserved." ];
      Element "Link"
        [("href", PStr "https://github.com/ghoshsoham71/DummyDB");
         ("target", PStr "_blank");
         ("rel", PStr "noopener noreferrer")]
        [ Element "Button"
            [("variant", PStr "outline"); ("size", PStr "sm")]
            [ Element "GitBranch" [("size", PNum 18)] [];
              Text "GitHub" ] ] ].

(** Home (part_000, lines 5-22).  The Navbar it mounts is rendered in
    place; the comment in braces yields no child. *)
Definition Home : Component := fun e =>
  Element "div"
    [("className", PStr "font-sans min-h-screen flex flex-col bg-background text-foreground")]
    [ Navbar e;
      Element "main"
        [("className", PStr "flex flex-1 flex-col items-center justify-center text-center gap-8 px-4")]
        [ Element "h1"
            [("className", PStr "text-4xl sm:text-6xl font-bold tracking-tight mb-2")]
            [Text "Generate Fake Data Instantly"];
          Element "p"
            [("className", PStr "text-lg sm:text-2xl max-w-xl text-muted-foreground mb-6")]
            [Text "Effortlessly create realistic mock data for SQL, NoSQL, and Graph databases. Perfect for testing, prototyping, and demos."];
          Element "Button" [("size", PStr "lg")] [Text "Get Started"] ];
      Element "footer"
        [("className", PStr "w-full flex justify-center items-center py-4 text-xs text-muted-foreground border-t border-border mt-8")]
        [ Text (copy_sign ++ " ");
          Number (getFullYear (new_Date e));
          Text " DummyDB. All rights reserved." ] ].

(** Two moments of the same year, and one of the year after. *)
Definition new_year_2025 : Env := mkEnv (mkDate 2025 0 1 0 0 0 0).

Definition year_end_2025 : Env := mkEnv (mkDate 2025 11 31 23 59 59 999).

Definition new_year_2026 : Env := mkEnv (mkDate 2026 0 1 0 0 0 0).

(** The [Number] children of a tree, left to right. *)
Fixpoint numbers (n : Node) : list Z :=
  match n with
  | Text _ => []
  | Number z => [z]
  | Element _ _ children => flat_map numbers children
  end.

End UI.

(** ** Building the image

    How the build file is read by the builder: which commands an
    instruction runs, which packages it installs, which files of the build
    context it takes in, and what a layer's cache entry is made of. *)

Module Build.
Import Scalar Dockerfile.

(** The simple commands of a shell line: its words, cut at [&&], [||] and
    [|]. *)
Fixpoint simple_commands (ws : list string) : list (list string) :=
  match ws with
  | [] => [[]]
  | w :: rest =>
      if (w =? "&&") || (w =? "||") || (w =? "|") then [] :: simple_commands rest
      else match simple_commands rest with
           | [] => [[w]]
           | c :: cs => (w :: c) :: cs
           end
  end.

Definition commands (c : Command) : list (list string) :=
  match c with
  | Exec argv => [argv]
  | Shell line => simple_commands (words line)
  end.

(** The commands an instruction runs, at build time ([RUN]) or in the
    container ([HEALTHCHECK], [CMD]). *)
Definition instruction_commands (i : Instruction) : list (list string) :=
  match i with
  | RUN c => commands c
  | HEALTHCHECK _ c => commands c
  | CMD c => commands c
  | _ => []
  end.

(** The instruction runs the program [tool]. *)
Definition runs (tool : string) (i : Instruction) : bool :=
  existsb (fun cmd => match cmd with
                      | t :: _ => t =? tool
                      | [] => false
                      end) (instruction_commands i).

(** The packages [apt-get install] is asked for. *)
Definition installed_by (cmd : list string) : list string :=
  match cmd with
  | a :: b :: args =>
      if (a =? "apt-get") && (b =? "install")
      then filter (fun x => negb (String.prefix "-" x)) args
      else []
  | _ => []
  end.

Definition installs (i : Instruction) : list string :=
  match i with
  | RUN c => flat_map installed_by (commands c)
  | _ => []
  end.

(** The files an instruction reads through [-r]. *)
Definition reads (i : Instruction) : list string :=
  flat_map (fun cmd => match arg_after "-r" cmd with
                       | Some f => [f]
                       | None => []
                       end) (instruction_commands i).

(** The sources an instruction copies from the build context. *)
Definition copies (i : Instruction) : list string :=
  match i with
  | COPY src _ => [src]
  | _ => []
  end.

(** A build context: the files beside the build file, with their
    contents. *)
Definition Context := list (string * string).

(** The files of the context a [COPY] source names: all of them for [.],
    else the file of that name and the files below the directory of that
    name. *)
Definition selected (src : string) (ctx : Context) : Context :=
  if src =? "." then ctx
  else filter (fun f => (fst f =? src) || String.prefix (src ++ "/") (fst f)) ctx.

(** What a layer is built from besides the instruction itself: the files a
    [COPY] takes in; nothing for the other instructions. *)
Definition layer_input (ctx : Context) (i : Instruction) : Context :=
  match i with
  | COPY src _ => selected src ctx
  | _ => []
  end.

(** The cache entries of a sequence of layers.  A layer is taken from the
    cache when its entry and those of all layers before it are unchanged. *)
Definition cache_keys (ctx : Context) (df : list Instruction)
  : list (Instruction * Context) :=
  map (fun i => (i, layer_input ctx i)) df.

(** The instructions before the one that copies the whole context. *)
Fixpoint before_copy_all (df : list Instruction) : list Instruction :=
  match df with
  | [] => []
  | i :: rest =>
      match i with
      | COPY src _ => if src =? "." then [] else i :: before_copy_all rest
      | _ => i :: before_copy_all rest
      end
  end.

(** Two contexts with the same requirements and different code. *)
Definition context_a : Context :=
  [("requirements.txt", "fastapi uvicorn"); ("main.py", "app = FastAPI()")].

Definition context_b : Context :=
  [("requirements.txt", "fastapi uvicorn"); ("main.py", "app = FastAPI(debug=True)")].

End Build.

(** ** Rolling the deployment out *)

Module Rollout.
Import Compose Deploy.

(** Create the containers of [ss] in the order given, then start them in
    that order. *)
Definition plan (ss : list Service) : list Action :=
  map (fun s => Create (name s)) ss ++ map (fun s => Start (name s)) ss.

(** Every service that an enabled service depends on is declared and
    enabled. *)
Definition dependencies_enabled (active : list string) (m : Manifest) : bool :=
  forallb (fun s =>
             forallb (fun d => match find_service m (fst d) with
                               | Some t => enabled active t
                               | None => false
                               end) (dependencies s))
          (up active m).

(** The host ports a deployment binds. *)
Definition published_ports (active : list string) (m : Manifest) : list N :=
  map published (flat_map port_mappings (up active m)).

(** A container exists only for a declared service that is enabled. *)
Definition only_enabled (active : list string) (m : Manifest) (st : State) : Prop :=
  forall n : string,
    is_created (st n) = true ->
    exists s : Service, find_service m n = Some s /\ enabled active s = true.

End Rollout.

(** ** The revised Home page *)

Module Revision.
Import UI.

(** Home as revised (the page appended to api/src/Dockerfile, lines
    36-63): the footer gains a link to the repository. *)
Definition Home : Component := fun e =>
  Element "div"
    [("className", PStr "font-sans min-h-screen flex flex-col bg-background text-foreground")]
    [ Navbar e;
      Element "main"
        [("className", PStr "flex flex-1 flex-col items-center justify-center text-center gap-8 px-4")]
        [ Element "h1"
            [("className", PStr "text-4xl sm:text-6xl font-bold tracking-tight mb-2")]
            [Text "Generate Fake Data Instantly"];
          Element "p"
            [("className", PStr "text-lg sm:text-2xl max-w-xl text-muted-foreground mb-6")]
            [Text "Effortlessly create realistic mock data for SQL, NoSQL, and Graph databases. Perfect for testing, prototyping, and demos."];
          Element "Button" [("size", PStr "lg")] [Text "Get Started"] ];
      Element "footer"
        [("className", PStr "w-full flex flex-col sm:flex-row justify-center items-center gap-2 py-4 text-xs text-muted-foreground border-t border-border mt-8")]
        [ Element "span" []
            [ Text (copy_sign ++ " ");
              Number (getFullYear (new_Date e));
              Text " DummyDB. All rights reserved." ];
          Element "a"
            [("href", PStr "https://github.com/ghoshsoham71/DummyDB");
             ("target", PStr "_blank");
             ("rel", PStr "noopener noreferrer");
             ("className", PStr "inline-flex items-center gap-1 px-3 py-1 rounded hover:bg-accent transition-colors text-foreground text-sm font-medium");
             ("style", PStyle [("textDecoration", "none")])]
            [ Element "GitBranch" [("size", PNum 18)] [];
              Text "GitHub" ] ] ].

End Revision.

(** ** Links *)

Module Links.
Import Scalar UI.

(** The elements of a tree with their props, parents first. *)
Fixpoint elements (n : Node) : list (string * list (string * PropValue)) :=
  match n with
  | Text _ => []
  | Number _ => []
  | Element tag props children => (tag, props) :: flat_map elements children
  end.

(** The string value of the prop [k]; none when the prop is absent or is
    not a string. *)
Fixpoint string_prop (k : string) (props : list (string * PropValue)) : option string :=
  match props with
  | [] => None
  | (k', v) :: rest =>
      if k' =? k then
        match v with
        | PStr s => Some s
        | _ => None
        end
      else string_prop k rest
  end.

Definition opens_new_tab (props : list (string * PropValue)) : bool :=
  match string_prop "target" props with
  | Some t => t =? "_blank"
  | None => false
  end.

Definition rel_tokens (props : list (string * PropValue)) : list string :=
  match string_prop "rel" props with
  | Some r => words r
  | None => []
  end.

(** The elements of the tree that open their target in a new tab. *)
Definition new_tab_links (n : Node) : list (string * list (string * PropValue)) :=
  filter (fun el => opens_new_tab (snd el)) (elements n).

(** The link gives the opened page neither a handle on the opener nor the
    referrer, and goes to an https address. *)
Definition shielded (el : string * list (string * PropValue)) : bool :=
  existsb (String.eqb "noopener") (rel_tokens (snd el))
  && existsb (String.eqb "noreferrer") (rel_tokens (snd el))
  && match string_prop "href" (snd el) with
     | Some h => String.prefix "https://" h
     | None => false
     end.

End Links.

(** * Properties *)

Import Scalar Health Compose Dockerfile Deploy Descriptor Proxy UI.

(** ** The two health checks *)

Lemma compose_health_value :
  compose_health =
  Some (mkHealthSpec ["curl"; "-f"; "http://localhost:8000/v1/health"] 30 10 3 40).
Proof. reflexivity. Qed.

Lemma image_health_value :
  image_health =
  Some (mkHealthSpec ["curl"; "-f"; "http://localhost:8000/v1/health"] 30 30 3 5).
Proof. reflexivity. Qed.

(** C1: the manifest's health check requests GET /v1/health every 30s with a
    10s timeout, 3 retries and a 40s start period; the image's health check
    requests the same endpoint every 30s with a 30s timeout, a 5s start
    period and 3 retries; taken field by field the two are not equal: they
    agree on interval and retries and differ in timeout and in start
    period. *)
Theorem healthchecks_disagree :
  exists c i : HealthSpec,
    compose_health = Some c /\ image_health = Some i
    /\ probes_get "/v1/health" c /\ timing c = (30, 10, 3, 40)%N
    /\ probes_get "/v1/health" i /\ timing i = (30, 30, 3, 5)%N
    /\ probe_url (probe_command c) = probe_url (probe_command i)
    /\ timing c <> timing i /\ c <> i
    /\ interval_s c = interval_s i /\ retry_count c = retry_count i
    /\ timeout_s c <> timeout_s i /\ grace_s c <> grace_s i.
Proof.
  eexists; eexists.
  split; [apply compose_health_value|].
  split; [apply image_health_value|].
  repeat split; try reflexivity; try discriminate.
Qed.

(** C9: both health checks run [curl -f] on the same URL
    http://localhost:8000/v1/health with 3 retries, and the port of that URL
    is the port the image exposes and the port the process is started on,
    8000. *)
Theorem probes_agree :
  exists (c i : HealthSpec) (u : Url),
    compose_health = Some c /\ image_health = Some i
    /\ probe_command c = ["curl"; "-f"; "http://localhost:8000/v1/health"]
    /\ probe_command i = probe_command c
    /\ fails_on_http_error (probe_command c) = true
    /\ fails_on_http_error (probe_command i) = true
    /\ probe_url (probe_command c) = Some u
    /\ probe_url (probe_command i) = Some u
    /\ u = mkUrl "http" "localhost" (Some 8000%N) "/v1/health"
    /\ retry_count c = 3%N /\ retry_count i = 3%N
    /\ map Some (exposed_ports dockerfile) = [port u]
    /\ listen_port dockerfile = port u
    /\ port u = Some 8000%N.
Proof.
  eexists; eexists; eexists.
  split; [apply compose_health_value|].
  split; [apply image_health_value|].
  repeat split; reflexivity.
Qed.

(** ** Profiles, ports, environment and mounts *)

Lemma restart_policies_declared :
  restart_policy sql_schema_parser = Some restart_unless_stopped
  /\ restart_policy nginx = Some restart_unless_stopped.
Proof. split; reflexivity. Qed.

(** Whatever the active profiles are, the application service is enabled. *)
Lemma application_always_enabled (active : list string) :
  enabled active sql_schema_parser = true.
Proof. reflexivity. Qed.

(** The proxy is enabled exactly when the production profile is active. *)
Lemma proxy_enabled_iff (active : list string) :
  enabled active nginx = true <-> In "production" active.
Proof.
  unfold enabled; cbn [profiles nginx existsb].
  rewrite orb_false_r, existsb_exists.
  split.
  - intros [p [Hin Heq]].
    apply String.eqb_eq in Heq. now subst.
  - intros Hin. exists "production". split; [assumption | reflexivity].
Qed.

(** C3: with no profile set the deployment creates one container, the
    application service, and no proxy (creating the proxy is refused in
    every state); with the production profile it creates the application
    service and the proxy, the proxy depends on the application service,
    and the proxy's container cannot be created before the application
    service's. *)
Theorem profile_gates_proxy :
  up [] docker_compose = [sql_schema_parser]
  /\ List.length (up [] docker_compose) = 1%nat
  /\ ~ In "nginx" (map name (up [] docker_compose))
  /\ (forall st, step [] docker_compose st (Create "nginx") = None)
  /\ up ["production"] docker_compose = [sql_schema_parser; nginx]
  /\ map fst (dependencies nginx) = [name sql_schema_parser]
  /\ step ["production"] docker_compose initial (Create "nginx") = None
  /\ run ["production"] docker_compose initial
         [Create "sql-schema-parser"; Create "nginx"] <> None.
Proof.
  repeat split; try reflexivity; try discriminate.
  cbn. intros [H | []]. discriminate H.
Qed.

(** C5: the application process is started on port 8000, which the image
    exposes and the manifest publishes as host port 8000 (alone, when no
    proxy is deployed); the proxy publishes port 80 and forwards to the
    application service on its internal port. *)
Theorem ports_declared :
  listen_port dockerfile = Some 8000%N
  /\ exposed_ports dockerfile = [8000%N]
  /\ port_mappings sql_schema_parser = [mkPortMapping 8000 8000]
  /\ flat_map port_mappings (up [] docker_compose) = [mkPortMapping 8000 8000]
  /\ port_mappings nginx = [mkPortMapping 80 80]
  /\ listen nginx_conf = 80%N
  /\ upstream_host nginx_conf = name sql_schema_parser
  /\ map target (port_mappings sql_schema_parser) = [upstream_port nginx_conf].
Proof. repeat split; reflexivity. Qed.

(** C7: the environment of the application service holds
    PYTHONUNBUFFERED=1, a flag that sets the output-buffering mode of the
    process. *)
Theorem unbuffered_output_flag :
  env_vars sql_schema_parser = [("PYTHONUNBUFFERED", "1")]
  /\ In ("PYTHONUNBUFFERED", "1") (env_vars sql_schema_parser)
  /\ existsb is_output_mode_flag (env_vars sql_schema_parser) = true
  /\ (1 <= List.length (filter is_output_mode_flag (env_vars sql_schema_parser)))%nat.
Proof.
  split; [reflexivity|].
  split; [left; reflexivity|].
  split; [reflexivity|].
  cbn. lia.
Qed.

(** C8: the mounts of the manifest are the log directory of the
    application service and the configuration file of the proxy; each is a
    bind mount of a host path relative to the manifest; the manifest names
    no volume of its own and the image declares none. *)
Theorem persisted_state_is_bind_mounts :
  all_mounts docker_compose =
    [ ("sql-schema-parser", mkMount Bind "./logs" "/app/logs");
      ("nginx", mkMount Bind "./nginx.conf" "/etc/nginx/nginx.conf") ]
  /\ List.length (flat_map volumes (services docker_compose))
     = List.length (all_mounts docker_compose)
  /\ Forall (fun nv => kind (snd nv) = Bind
                       /\ is_host_path (source (snd nv)) = true
                       /\ is_relative (source (snd nv)) = true)
            (all_mounts docker_compose)
  /\ top_volumes docker_compose = []
  /\ declared_volumes dockerfile = [].
Proof.
  repeat split; try reflexivity.
  repeat constructor.
Qed.

(** ** Start-up order *)

Lemma find_service_cases (n : string) :
  find_service docker_compose n =
  if "sql-schema-parser" =? n then Some sql_schema_parser
  else if "nginx" =? n then Some nginx
  else None.
Proof. reflexivity. Qed.

Lemma initial_ordered : ordered initial = true.
Proof. reflexivity. Qed.

(** Every step keeps the order between the two containers. *)
Lemma step_ordered (active : list string) (st st' : State) (a : Action) :
  ordered st = true ->
  step active docker_compose st a = Some st' ->
  ordered st' = true.
Proof.
  intros Hord Hstep.
  destruct a as [n | n | n h]; unfold step in Hstep;
    rewrite find_service_cases in Hstep;
    (destruct (String.eqb_spec "sql-schema-parser" n) as [<- | Hn1];
     [ | destruct (String.eqb_spec "nginx" n) as [<- | Hn2]; [ | discriminate ] ]).
  all: unfold ordered, set in *.
  all: cbn [dependencies depends_on sql_schema_parser nginx healthcheck map forallb fst snd satisfied] in Hstep.
  all: try destruct (enabled active _); cbn [andb] in Hstep.
  all: destruct (st "nginx") as [ | | hn] eqn:Hng;
    destruct (st "sql-schema-parser") as [ | | ha] eqn:Happ;
    cbn in Hord, Hstep; try discriminate;
    inversion Hstep; subst st'; cbn; rewrite ?Hng, ?Happ; reflexivity.
Qed.

Lemma run_ordered (active : list string) (acts : list Action) :
  forall st st' : State,
    ordered st = true ->
    run active docker_compose st acts = Some st' ->
    ordered st' = true.
Proof.
  induction acts as [ | a rest IH]; intros st st' Hord Hrun; cbn [run] in Hrun.
  - inversion Hrun; subst; assumption.
  - destruct (step active docker_compose st a) as [st1 | ] eqn:Hstep; [ | discriminate ].
    apply (IH st1 st'); [ | assumption ].
    apply (step_ordered active st st1 a); assumption.
Qed.

(** C4: in every deployment the proxy runs only in states in which the
    application service runs, and is started only from a state in which the
    application service's container has been created; the dependency is
    the plain one, which waits for the container to be started and not for
    it to be healthy: a deployment can start the proxy while the
    application service is unhealthy. *)
Theorem proxy_waits_for_creation_only
        (active : list string) (acts : list Action) (st : State)
        (Hrun : run active docker_compose initial acts = Some st) :
  implb (is_running (st "nginx")) (is_running (st "sql-schema-parser")) = true
  /\ implb (is_running (st "nginx")) (is_created (st "sql-schema-parser")) = true
  /\ (forall st' : State,
        step active docker_compose st (Start "nginx") = Some st' ->
        is_created (st "sql-schema-parser") = true)
  /\ dependencies nginx = [("sql-schema-parser", service_started)]
  /\ ~ In service_healthy (map snd (dependencies nginx))
  /\ exists st2 : State,
       run ["production"] docker_compose initial start_behind_unhealthy = Some st2
       /\ st2 "nginx" = running starting
       /\ st2 "sql-schema-parser" = running unhealthy.
Proof.
  assert (Hord : ordered st = true)
    by (apply (run_ordered active acts initial st initial_ordered Hrun)).
  unfold ordered in Hord. apply andb_true_iff in Hord as [_ Hrunning].
  split; [exact Hrunning | ].
  split.
  { destruct (st "nginx"), (st "sql-schema-parser"); cbn in *; congruence. }
  split.
  { intros st' Hstart. unfold step in Hstart.
    rewrite find_service_cases in Hstart. cbn in Hstart.
    destruct (st "nginx"); try discriminate.
    destruct (st "sql-schema-parser"); try discriminate; reflexivity. }
  split; [reflexivity | ].
  split.
  { cbn. intros [H | []]. discriminate H. }
  eexists. split; [reflexivity | ]. split; reflexivity.
Qed.

Lemma proxy_waits_for_creation_only_witness :
  exists st : State,
    run ["production"] docker_compose initial start_both = Some st
    /\ is_running (st "nginx") = true
    /\ implb (is_running (st "nginx")) (is_created (st "sql-schema-parser")) = true.
Proof.
  eexists. split; [reflexivity | ]. split; [reflexivity | ].
  exact (proj1 (proj2 (proxy_waits_for_creation_only
                         ["production"] start_both _ eq_refl))).
Defined.

(** ** Rendering *)

(** The year on the page is the year of the clock. *)
Lemma Footer_numbers (e : Env) : numbers (Footer e) = [getFullYear (new_Date e)].
Proof. reflexivity. Qed.

Lemma Home_numbers (e : Env) : numbers (Home e) = [getFullYear (new_Date e)].
Proof. reflexivity. Qed.

(** Renders of different years differ: the year is an input of the page. *)
Lemma Footer_reads_year (e1 e2 : Env) :
  Footer e1 = Footer e2 -> getFullYear (new_Date e1) = getFullYear (new_Date e2).
Proof.
  intros H. apply (f_equal numbers) in H.
  rewrite !Footer_numbers in H. now inversion H.
Qed.

(** C10: two renders with the same current year, as read by
    [new Date().getFullYear()], give the same markup for the Home page, the
    Footer and the Navbar; the Navbar does not read the date and gives the
    same markup on every render. *)
Theorem render_depends_on_year_only
        (e1 e2 : Env)
        (Hyear : getFullYear (new_Date e1) = getFullYear (new_Date e2)) :
  Home e1 = Home e2
  /\ Footer e1 = Footer e2
  /\ Navbar e1 = Navbar e2
  /\ forall e e' : Env, Navbar e = Navbar e'.
Proof.
  unfold Home, Footer. rewrite Hyear.
  repeat split; reflexivity.
Qed.

Lemma render_depends_on_year_only_witness :
  year_end_2025 <> new_year_2025
  /\ getFullYear (new_Date new_year_2025) = getFullYear (new_Date year_end_2025)
  /\ Home new_year_2025 = Home year_end_2025
  /\ Footer new_year_2025 = Footer year_end_2025
  /\ Navbar new_year_2025 = Navbar year_end_2025.
Proof.
  split; [discriminate | ].
  split; [reflexivity | ].
  destruct (render_depends_on_year_only new_year_2025 year_end_2025 eq_refl)
    as [Hhome [Hfooter [Hnav _]]].
  repeat split; assumption.
Defined.

(** * Further properties *)

Import Build Rollout Links.

(** ** The build file *)

(** Where a list is cut, the element after the cut and the part before
    it. *)
Lemma split_at {A : Type} (l pre post : list A) (i : A) :
  l = (pre ++ i :: post)%list ->
  nth_error l (List.length pre) = Some i /\ firstn (List.length pre) l = pre.
Proof.
  intros ->. split.
  - rewrite nth_error_app2 by lia. now rewrite Nat.sub_diag.
  - rewrite firstn_app, Nat.sub_diag, firstn_all. cbn. apply app_nil_r.
Qed.

(** Cases on the position of an instruction in the build file. *)
Ltac each_instruction n Hnth :=
  let m := fresh "n" in
  destruct n as [ | m];
  [ cbn in Hnth; first [ discriminate Hnth | inversion Hnth; subst; clear Hnth ]
  | first [ solve [cbn in Hnth; destruct m; discriminate Hnth]
          | each_instruction m Hnth ] ].

(** X1: every instruction of the build file that runs curl, at build time
    or as the health probe of the container, comes after an instruction
    that installs the package curl. *)
Theorem curl_installed_before_use
        (pre post : list Instruction) (i : Instruction)
        (Hsplit : dockerfile = (pre ++ i :: post)%list)
        (Huse : runs "curl" i = true) :
  In "curl" (flat_map installs pre).
Proof.
  destruct (split_at _ _ _ _ Hsplit) as [Hnth Hpre].
  rewrite <- Hpre. clear Hpre Hsplit.
  remember (List.length pre) as n eqn:Hn. clear Hn.
  each_instruction n Hnth;
    first [ vm_compute in Huse; discriminate Huse | vm_compute; tauto ].
Qed.

Lemma curl_installed_before_use_witness :
  runs "curl" (HEALTHCHECK ["--interval=30s"; "--timeout=30s"; "--start-period=5s"; "--retries=3"]
                           (Shell "curl -f http://localhost:8000/v1/health || exit 1")) = true
  /\ In "curl" (flat_map installs (firstn 9 dockerfile)).
Proof.
  split; [reflexivity | ].
  exact (curl_installed_before_use
           (firstn 9 dockerfile) (skipn 10 dockerfile) _ eq_refl eq_refl).
Defined.

(** X2: a file that an instruction of the build file reads through [-r]
    has been copied from the build context by an earlier instruction. *)
Theorem requirements_copied_before_read
        (pre post : list Instruction) (i : Instruction) (f : string)
        (Hsplit : dockerfile = (pre ++ i :: post)%list)
        (Hread : In f (reads i)) :
  In f (flat_map copies pre).
Proof.
  destruct (split_at _ _ _ _ Hsplit) as [Hnth Hpre].
  rewrite <- Hpre. clear Hpre Hsplit.
  remember (List.length pre) as n eqn:Hn. clear Hn.
  each_instruction n Hnth; vm_compute in Hread;
    first [ contradiction | destruct Hread as [<- | []]; vm_compute; tauto ].
Qed.

Lemma requirements_copied_before_read_witness :
  In "requirements.txt" (reads (RUN (Shell "uv pip install --system -r requirements.txt")))
  /\ In "requirements.txt" (flat_map copies (firstn 6 dockerfile)).
Proof.
  assert (Hread : In "requirements.txt"
                     (reads (RUN (Shell "uv pip install --system -r requirements.txt"))))
    by (left; reflexivity).
  split; [exact Hread | ].
  exact (requirements_copied_before_read
           (firstn 6 dockerfile) (skipn 7 dockerfile) _ _ eq_refl Hread).
Defined.

Lemma before_copy_all_value : before_copy_all dockerfile = firstn 7 dockerfile.
Proof. reflexivity. Qed.

(** X3: the layers built before the whole context is copied end with the
    one that installs the Python dependencies, and their cache entries are
    the same for two build contexts exactly when the two contexts hold the
    same requirements file: a change to the application code alone leaves
    the dependency layers in the cache. *)
Theorem dependency_layers_cached (ctx1 ctx2 : Context) :
  last (before_copy_all dockerfile) (FROM "")
    = RUN (Shell "uv pip install --system -r requirements.txt")
  /\ (selected "requirements.txt" ctx1 = selected "requirements.txt" ctx2
      <-> cache_keys ctx1 (before_copy_all dockerfile)
          = cache_keys ctx2 (before_copy_all dockerfile)).
Proof.
  split; [reflexivity | ].
  rewrite before_copy_all_value.
  unfold cache_keys. cbn [firstn dockerfile map layer_input].
  split.
  - intros Heq. now rewrite Heq.
  - intros Hkeys.
    apply (f_equal (fun k => nth 5 (map snd k) [])) in Hkeys.
    exact Hkeys.
Qed.

Lemma dependency_layers_cached_witness :
  context_a <> context_b
  /\ cache_keys context_a (before_copy_all dockerfile)
     = cache_keys context_b (before_copy_all dockerfile)
  /\ cache_keys context_a dockerfile <> cache_keys context_b dockerfile.
Proof.
  split; [discriminate | ].
  split.
  - exact (proj1 (proj2 (dependency_layers_cached context_a context_b)) eq_refl).
  - discriminate.
Defined.

(** ** Deployments under every choice of profiles *)

Lemma up_cases (active : list string) :
  up active docker_compose =
  if enabled active nginx then [sql_schema_parser; nginx] else [sql_schema_parser].
Proof.
  unfold up. cbn [services docker_compose filter].
  rewrite application_always_enabled.
  destruct (enabled active nginx); reflexivity.
Qed.

(** X4: whatever profiles are active, no two services of the deployment
    publish the same host port. *)
Theorem published_ports_distinct (active : list string) :
  NoDup (published_ports active docker_compose).
Proof.
  unfold published_ports. rewrite up_cases.
  destruct (enabled active nginx); cbn.
  - constructor.
    + intros [H | []]. discriminate H.
    + constructor; [intros [] | constructor].
  - constructor; [intros [] | constructor].
Qed.

(** X5: whatever profiles are active, every service that a created service
    depends on is declared in the manifest and is created too. *)
Theorem dependencies_always_enabled (active : list string) :
  dependencies_enabled active docker_compose = true.
Proof.
  unfold dependencies_enabled. rewrite up_cases.
  destruct (enabled active nginx); reflexivity.
Qed.

(** A step keeps containers to the declared, enabled services; this holds
    for every manifest. *)
Lemma step_only_enabled (active : list string) (m : Manifest)
      (st st' : State) (a : Action) :
  only_enabled active m st ->
  step active m st a = Some st' ->
  only_enabled active m st'.
Proof.
  intros Hinv Hstep k Hk.
  destruct a as [n | n | n h]; cbn [step] in Hstep;
    destruct (find_service m n) as [s | ] eqn:Hfind; try discriminate.
  - destruct (enabled active s) eqn:Hen; cbn [andb] in Hstep; [ | discriminate ].
    destruct (negb (is_created (st n)) &&
              forallb (fun d => is_created (st (fst d))) (dependencies s));
      [ | discriminate ].
    inversion Hstep; subst st'; clear Hstep. unfold set in Hk.
    destruct (k =? n) eqn:Hkn.
    + apply String.eqb_eq in Hkn. subst k. exists s. split; assumption.
    + apply Hinv; assumption.
  - destruct (st n) eqn:Hn; try discriminate.
    destruct (forallb (satisfied st) (dependencies s)); [ | discriminate ].
    inversion Hstep; subst st'; clear Hstep. unfold set in Hk.
    destruct (k =? n) eqn:Hkn.
    + apply String.eqb_eq in Hkn. subst k. apply Hinv. now rewrite Hn.
    + apply Hinv; assumption.
  - destruct (healthcheck s); [ | discriminate ].
    destruct (st n) eqn:Hn; try discriminate.
    inversion Hstep; subst st'; clear Hstep. unfold set in Hk.
    destruct (k =? n) eqn:Hkn.
    + apply String.eqb_eq in Hkn. subst k. apply Hinv. now rewrite Hn.
    + apply Hinv; assumption.
Qed.

Lemma run_only_enabled (active : list string) (m : Manifest) (acts : list Action) :
  forall st st' : State,
    only_enabled active m st ->
    run active m st acts = Some st' ->
    only_enabled active m st'.
Proof.
  induction acts as [ | a rest IH]; intros st st' Hinv Hrun; cbn [run] in Hrun.
  - inversion Hrun; subst; assumption.
  - destruct (step active m st a) as [st1 | ] eqn:Hstep; [ | discriminate ].
    apply (IH st1 st'); [ | assumption ].
    apply (step_only_enabled active m st st1 a); assumption.
Qed.

(** X6: in every state a deployment reaches, a container exists only for
    the application service or, when the production profile is active, for
    the proxy; no sequence of actions creates any other container, and
    none creates the proxy without the profile. *)
Theorem containers_only_for_enabled_services
        (active : list string) (acts : list Action) (st : State) (n : string)
        (Hrun : run active docker_compose initial acts = Some st)
        (Hexists : is_created (st n) = true) :
  n = "sql-schema-parser" \/ (n = "nginx" /\ In "production" active).
Proof.
  assert (Hinv : only_enabled active docker_compose st).
  { apply (run_only_enabled active docker_compose acts initial st); [ | exact Hrun ].
    intros k Hk. discriminate Hk. }
  destruct (Hinv n Hexists) as [s [Hfind Hen]].
  rewrite find_service_cases in Hfind.
  destruct (String.eqb_spec "sql-schema-parser" n) as [<- | _]; [left; reflexivity | ].
  destruct (String.eqb_spec "nginx" n) as [<- | _]; [ | discriminate ].
  right. split; [reflexivity | ].
  inversion Hfind; subst s. apply proxy_enabled_iff. exact Hen.
Qed.

Lemma containers_only_for_enabled_services_witness :
  exists st : State,
    run ["production"] docker_compose initial start_both = Some st
    /\ is_created (st "nginx") = true
    /\ ("nginx" = "sql-schema-parser" \/ ("nginx" = "nginx" /\ In "production" ["production"])).
Proof.
  eexists. split; [reflexivity | ]. split; [reflexivity | ].
  exact (containers_only_for_enabled_services
           ["production"] start_both _ "nginx" eq_refl eq_refl).
Defined.

(** X7: whatever profiles are active, creating the enabled services in the
    order of the manifest and then starting them in that order succeeds: it
    leaves every enabled service running and every other service absent. *)
Theorem manifest_order_deploys (active : list string) :
  exists st : State,
    run active docker_compose initial (plan (up active docker_compose)) = Some st
    /\ Forall (fun s => st (name s) =
                        if enabled active s then running starting else absent)
              (services docker_compose).
Proof.
  rewrite up_cases.
  destruct (enabled active nginx) eqn:Hen.
  - eexists. split.
    + unfold plan. cbn [map app name sql_schema_parser nginx run].
      unfold step. rewrite !find_service_cases.
      cbn -[enabled]. rewrite application_always_enabled.
      cbn -[enabled]. rewrite Hen.
      cbn. reflexivity.
    + repeat constructor; cbn -[enabled]; now rewrite ?Hen.
  - eexists. split.
    + unfold plan. cbn [map app name sql_schema_parser run].
      unfold step. rewrite !find_service_cases.
      cbn. reflexivity.
    + repeat constructor; cbn -[enabled]; now rewrite ?Hen.
Qed.

(** ** The pages *)

Lemma revised_Home_numbers (e : Env) :
  numbers (Revision.Home e) = [getFullYear (new_Date e)].
Proof. reflexivity. Qed.

(** X8: the markup of the Footer, of the Home page and of the revised Home
    page is the same for two renders exactly when the two renders happen in
    the same year: the markup of another year is a different markup, and
    nothing but the year tells two renders apart. *)
Theorem markup_same_iff_year_same (e1 e2 : Env) :
  (Footer e1 = Footer e2
   <-> getFullYear (new_Date e1) = getFullYear (new_Date e2))
  /\ (Home e1 = Home e2
      <-> getFullYear (new_Date e1) = getFullYear (new_Date e2))
  /\ (Revision.Home e1 = Revision.Home e2
      <-> getFullYear (new_Date e1) = getFullYear (new_Date e2)).
Proof.
  split; [ | split ]; split.
  - apply Footer_reads_year.
  - intros Hyear. unfold Footer. now rewrite Hyear.
  - intros Hsame. apply (f_equal numbers) in Hsame.
    rewrite !Home_numbers in Hsame. now inversion Hsame.
  - intros Hyear. unfold Home. now rewrite Hyear.
  - intros Hsame. apply (f_equal numbers) in Hsame.
    rewrite !revised_Home_numbers in Hsame. now inversion Hsame.
  - intros Hyear. unfold Revision.Home. now rewrite Hyear.
Qed.

Lemma markup_same_iff_year_same_witness :
  Revision.Home new_year_2025 = Revision.Home year_end_2025
  /\ Footer new_year_2025 <> Footer new_year_2026
  /\ Home new_year_2025 <> Home new_year_2026
  /\ Revision.Home new_year_2025 <> Revision.Home new_year_2026.
Proof.
  destruct (markup_same_iff_year_same new_year_2025 new_year_2026)
    as [[Hfooter _] [[Hhome _] [Hrevised _]]].
  split.
  - exact (proj2 (proj2 (proj2 (markup_same_iff_year_same
                                  new_year_2025 year_end_2025))) eq_refl).
  - split; [ | split ]; intros Hsame.
    + apply Hfooter in Hsame. discriminate Hsame.
    + apply Hhome in Hsame. discriminate Hsame.
    + apply Hrevised in Hsame. discriminate Hsame.
Defined.

(** X9: in every render, the Footer and the revised Home page hold one
    link that opens in a new tab, the one to the repository, and each such
    link carries [noopener] and [noreferrer] and an https address; the Home
    page and the Navbar hold no such link. *)
Theorem new_tab_links_shielded (e : Env) :
  List.length (new_tab_links (Footer e)) = 1%nat
  /\ List.length (new_tab_links (Revision.Home e)) = 1%nat
  /\ forallb shielded (new_tab_links (Footer e)) = true
  /\ forallb shielded (new_tab_links (Revision.Home e)) = true
  /\ map (fun el => string_prop "href" (snd el))
         (new_tab_links (Footer e) ++ new_tab_links (Revision.Home e))%list
     = [Some "https://github.com/ghoshsoham71/DummyDB";
        Some "https://github.com/ghoshsoham71/DummyDB"]
  /\ new_tab_links (Home e) = []
  /\ new_tab_links (Navbar e) = [].
Proof. repeat split; reflexivity. Qed.
